(** * pyspark_ai/tool.py: the Spark SQL and similarity tools

    A shallow embedding of the three LangChain tools of [pyspark_ai.tool]
    ([QuerySparkSQLTool], [QueryValidationTool], [SimilarValueTool]) and of
    [VectorSearchUtil].  Every tool is an adapter over collaborators that
    live outside the module: the Spark session, the FAISS vector store with
    its embedding model, the file system, and two helpers of sibling modules
    ([SparkUtils.get_dataframe_results], [AIUtils.extract_code_blocks]).
    The collaborators are the fields of the class [Collaborators]; the tools
    are written over any instance of it, in a monad that threads the world
    (session, disk, log of collaborator calls) and Python exceptions. *)

From Stdlib Require Import Ascii String.
From stdpp Require Import strings gmap list.

(** ** Python values and exceptions *)

(** The exception classes that the module raises itself, that the
    interpreter raises for its statements, or that a collaborator raises.
    [PySparkException] stands for [pyspark.errors.PySparkException] and all
    its subclasses (what an [except PySparkException] clause catches); the
    string is what [str(e)] gives. *)
Inductive exn : Type :=
  | PySparkException (msg : string)
  | ValueError (msg : string)
  | NotImplementedError (msg : string)
  | IndexError (msg : string)
  | TypeError (msg : string)
  | OtherException (class_name msg : string).

Definition is_PySparkException (e : exn) : bool :=
  match e with PySparkException _ => true | _ => false end.

(** The result of running a Python expression: a value or a raised
    exception. *)
Inductive Outcome (A : Type) : Type :=
  | Ok (a : A)
  | Raise (e : exn).
Arguments Ok {A} a.
Arguments Raise {A} e.

(** A Python object as this module observes it: the only thing the tools
    ever do with a value handed back by a collaborator is to apply the
    builtin [str] to it. *)
Record PyObj : Type := { builtin_str : string }.

(** A LangChain [Document]; the tools read [page_content] only. *)
Record Document : Type := { page_content : string }.

(** Truthiness of a [str] and of an [Optional[str]]. *)
Definition truthy (s : string) : bool :=
  match s with EmptyString => false | String _ _ => true end.

Definition truthy_opt (o : option string) : bool :=
  match o with None => false | Some s => truthy s end.

(** [lst[i]] for a non-negative [i]. *)
Definition getitem {A : Type} (lst : list A) (i : nat) : Outcome A :=
  match lst !! i with
  | Some a => Ok a
  | None => Raise (IndexError "list index out of range")
  end.

(** [s.split(sep)] for a one-character separator: the result is never
    empty, and has one more field than [s] has separators. *)
Fixpoint py_split (sep : Ascii.ascii) (s : string) : list string :=
  match s with
  | EmptyString => [EmptyString]
  | String c s' =>
      if Ascii.eqb c sep then EmptyString :: py_split sep s'
      else match py_split sep s' with
           | field :: fields => String c field :: fields
           | [] => [String c EmptyString]
           end
  end.

(** [a + b] where [a] is an [Optional[str]] and [b] a [str]. *)
Definition py_add (a : option string) (b : string) : Outcome string :=
  match a with
  | Some s => Ok (s +:+ b)
  | None => Raise (TypeError "unsupported operand type(s) for +: 'NoneType' and 'str'")
  end.

(** ** The collaborators *)

(** What is stored under a path of the file system: a FAISS index written by
    [save_local], or something else. *)
Inductive FsEntry (Index : Type) : Type :=
  | IndexDir (idx : Index)
  | OtherFile.
Arguments IndexDir {Index} idx.
Arguments OtherFile {Index}.

(** Calls that leave the module, in the order they are made. *)
Inductive Event : Type :=
  | EvSql (query : string)
  | EvCollect
  | EvResults
  | EvLoad (path : string)
  | EvBuild (corpus : option (list string))
  | EvSave (path : string)
  | EvSearch (text : string).

Class Collaborators : Type := {
  Session : Type;
  DataFrame : Type;
  Row : Type;
  Index : Type;
  (** whether [from pyspark.errors import PySparkException] succeeds *)
  pyspark_errors_importable : bool;
  (** [spark.sql(q)] *)
  spark_sql : string -> Session -> Outcome DataFrame * Session;
  (** [df.collect()] *)
  df_collect : DataFrame -> Session -> Outcome (list Row) * Session;
  (** [row[col]] *)
  row_getitem : Row -> string -> Outcome PyObj;
  (** [SparkUtils.get_dataframe_results(df)], of [pyspark_ai.spark_utils] *)
  get_dataframe_results : DataFrame -> Session -> Outcome PyObj * Session;
  (** [AIUtils.extract_code_blocks(text)], of [pyspark_ai.ai_utils] *)
  extract_code_blocks : string -> Outcome (list string);
  (** [FAISS.from_texts(col_lst, HuggingFaceBgeEmbeddings())] *)
  FAISS_from_texts : option (list string) -> Outcome Index;
  (** [vector_db.similarity_search(text)] *)
  similarity_search : Index -> string -> Outcome (list Document);
}.

(** ** The world and the monad of tool runs *)

Section Monad.
Context `{C : Collaborators}.

Record World : Type := {
  session : Session;
  disk : gmap string (FsEntry Index);
  trace : list Event;
}.

Definition M (A : Type) : Type := World -> Outcome A * World.

Definition ret {A : Type} (a : A) : M A := fun w => (Ok a, w).

Definition raise {A : Type} (e : exn) : M A := fun w => (Raise e, w).

Definition bind {A B : Type} (m : M A) (k : A -> M B) : M B :=
  fun w =>
    match m w with
    | (Ok a, w') => k a w'
    | (Raise e, w') => (Raise e, w')
    end.

(** A pure expression that may raise. *)
Definition lift {A : Type} (o : Outcome A) : M A := fun w => (o, w).

Definition log (ev : Event) : M unit :=
  fun w => (Ok tt, {| session := session w; disk := disk w;
                      trace := trace w ++ [ev] |}).

(** A call into the Spark session. *)
Definition on_session {A : Type}
    (f : Session -> Outcome A * Session) : M A :=
  fun w =>
    let (o, s') := f (session w) in
    (o, {| session := s'; disk := disk w; trace := trace w |}).

(** [try: body except PySparkException as e: handler(str(e))] *)
Definition try_except_PySparkException {A : Type}
    (body : M A) (handler : string -> M A) : M A :=
  fun w =>
    match body w with
    | (Raise (PySparkException msg), w') => handler msg w'
    | r => r
    end.

End Monad.

Notation "'let*' x ':=' m 'in' k" := (bind m (fun x => k))
  (at level 10, x name, m at level 100, k at level 200, only parsing).
Notation "'run' m 'then' k" := (bind m (fun _ => k))
  (at level 10, m at level 100, k at level 200, only parsing).

(** The message of the import guard of both SQL tools. *)
Definition pyspark_not_installed : string :=
  "pyspark is not installed. Please install it with `pip install pyspark`".

(** ** QuerySparkSQLTool *)

Module QuerySparkSQLTool.
Section Tool.
Context `{C : Collaborators}.

Definition _run_command (command : string) : M string :=
  let* df := (run log (EvSql command) then on_session (spark_sql command)) in
  let* r := (run log EvResults then on_session (get_dataframe_results df)) in
  ret (builtin_str r).

Definition _run_no_throw (command : string) : M string :=
  if pyspark_errors_importable then
    try_except_PySparkException
      (_run_command command)
      (fun e => ret ("Error: " +:+ e))
  else raise (ValueError pyspark_not_installed).

Definition _run (query : string) : M string := _run_no_throw query.

Definition _arun (query : string) : M string :=
  raise (NotImplementedError "QuerySqlDbTool does not support async").

End Tool.
End QuerySparkSQLTool.

(** ** QueryValidationTool *)

Module QueryValidationTool.
Section Tool.
Context `{C : Collaborators}.

(** The body of the [try] statement of [_run]. *)
Definition _run_body (query : string) : M string :=
  let* blocks := lift (extract_code_blocks query) in
  let* actual_query := lift (getitem blocks 0) in
  let* _df := (run log (EvSql actual_query)
               then on_session (spark_sql actual_query)) in
  ret "OK".

Definition _run (query : string) : M string :=
  if pyspark_errors_importable then
    try_except_PySparkException
      (_run_body query)
      (fun e => ret ("Error: " +:+ e))
  else raise (ValueError pyspark_not_installed).

Definition _arun (args : list string) : M string :=
  raise (NotImplementedError "ListTablesSqlDbTool does not support async").

End Tool.
End QueryValidationTool.

(** ** VectorSearchUtil *)

(** The imports at the head of [vector_similarity_search] (langchain's FAISS
    and HuggingFaceBgeEmbeddings, [os]) are declared dependencies and are
    taken to succeed, as is the construction of the embedding model.  The
    disk maps a path to what [save_local] wrote there, so that [load_local]
    gives back the index that was saved. *)
Module VectorSearchUtil.
Section Util.
Context `{C : Collaborators}.

(** [os.path.exists(path)] *)
Definition os_path_exists (path : string) : M bool :=
  fun w => (Ok (bool_decide (is_Some (disk w !! path))), w).

(** [FAISS.load_local(path, HuggingFaceBgeEmbeddings())]: gives back the
    index that [save_local] wrote under the path. *)
Definition FAISS_load_local (path : string) : M Index :=
  run log (EvLoad path) then
  fun w =>
    match disk w !! path with
    | Some (IndexDir idx) => (Ok idx, w)
    | _ => (Raise (OtherException "RuntimeError"
                     ("could not open " +:+ path +:+ " for reading")), w)
    end.

(** [vector_db.save_local(path)] *)
Definition save_local (vector_db : Index) (path : string) : M unit :=
  run log (EvSave path) then
  fun w => (Ok tt, {| session := session w;
                      disk := <[path := IndexDir vector_db]> (disk w);
                      trace := trace w |}).

Definition vector_similarity_search
    (col_lst : option (list string)) (vector_store_path : option string)
    (search_text : string) : M string :=
  let* found :=
    match vector_store_path with
    | Some p => if truthy p then os_path_exists p else ret false
    | None => ret false
    end in
  let* vector_db :=
    match vector_store_path, found with
    | Some p, true => FAISS_load_local p
    | _, _ =>
        let* vector_db :=
          (run log (EvBuild col_lst) then lift (FAISS_from_texts col_lst)) in
        run (match vector_store_path with
             | Some p => if truthy p then save_local vector_db p else ret tt
             | None => ret tt
             end)
        then ret vector_db
    end in
  let* docs :=
    (run log (EvSearch search_text)
     then lift (similarity_search vector_db search_text)) in
  let* doc := lift (getitem docs 0) in
  ret (page_content doc).

End Util.
End VectorSearchUtil.

(** ** SimilarValueTool *)

Module SimilarValueTool.
Section Tool.
Context `{C : Collaborators}.

(** [[str(row[col]) for row in rows]] *)
Fixpoint column_strings (col : string) (rows : list Row)
    : Outcome (list string) :=
  match rows with
  | [] => Ok []
  | row :: rows' =>
      match row_getitem row col with
      | Raise e => Raise e
      | Ok v =>
          match column_strings col rows' with
          | Raise e => Raise e
          | Ok vs => Ok (builtin_str v :: vs)
          end
      end
  end.

(** ["select distinct `{}` from {}".format(col, temp_name)] *)
Definition distinct_query (col temp_name : string) : string :=
  "select distinct `" +:+ col +:+ "` from " +:+ temp_name.

Definition _run (vector_store_dir : option string) (inputs : string)
    : M string :=
  let input_lst := py_split "|" inputs in
  let* search_text := lift (getitem input_lst 0) in
  let* col := lift (getitem input_lst 1) in
  let* temp_name := lift (getitem input_lst 2) in
  if negb (truthy_opt vector_store_dir) then
    let* new_df :=
      (run log (EvSql (distinct_query col temp_name))
       then on_session (spark_sql (distinct_query col temp_name))) in
    let* rows := (run log EvCollect then on_session (df_collect new_df)) in
    let* col_lst := lift (column_strings col rows) in
    let* p0 := lift (py_add vector_store_dir temp_name) in
    let vector_store_path := p0 +:+ "_" +:+ col in
    VectorSearchUtil.vector_similarity_search
      (Some col_lst) (Some vector_store_path) search_text
  else
    VectorSearchUtil.vector_similarity_search None None search_text.

Definition _arun (args : list string) : M string :=
  raise (NotImplementedError "SimilarityTool does not support async").

End Tool.
End SimilarValueTool.

(** ** The helpers of sibling modules, as the specification describes them *)

Definition backtick : Ascii.ascii := "`"%char.

(** The fence that delimits a code block. *)
Definition fence : string := "```".

(** [after_fence s] is what follows when [s] starts with a fence. *)
Definition after_fence (s : string) : option string :=
  match s with
  | String a (String b (String c rest)) =>
      if Ascii.eqb a backtick && Ascii.eqb b backtick && Ascii.eqb c backtick
      then Some rest else None
  | _ => None
  end.

(** Cuts [s] at its leftmost fence: the text before it and the text after. *)
Fixpoint split_fence (s : string) : option (string * string) :=
  match s with
  | EmptyString => None
  | String c s' =>
      match after_fence s with
      | Some rest => Some (EmptyString, rest)
      | None =>
          match split_fence s' with
          | Some (before, rest) => Some (String c before, rest)
          | None => None
          end
      end
  end.

(** The contents of the fenced blocks of [s], left to right; an opening
    fence that is never closed starts no block. *)
Fixpoint blocks_from (fuel : nat) (s : string) : list string :=
  match fuel with
  | 0 => []
  | S fuel' =>
      match split_fence s with
      | None => []
      | Some (_, opened) =>
          match split_fence opened with
          | None => []
          | Some (body, rest) => body :: blocks_from fuel' rest
          end
      end
  end.

Definition fenced_blocks (s : string) : list string :=
  blocks_from (S (String.length s)) s.

(** Modelled from the spec: [AIUtils.extract_code_blocks], whose module
    [pyspark_ai/ai_utils.py] is not among the sources.  Section 4.2: the
    input "may contain markup-delimited code blocks (e.g., fenced blocks);
    the tool extracts the first such block's contents and treats that as the
    actual query to validate, discarding any surrounding prose.  If no fenced
    block is present, behavior depends on the extraction helper's fallback".
    The helper gives the contents of the fenced blocks in order, so that the
    tool's [[0]] is the first block; the fallback is a parameter. *)
Definition spec_extract_code_blocks
    (fallback : string -> Outcome (list string)) (text : string)
    : Outcome (list string) :=
  match fenced_blocks text with
  | [] => fallback text
  | blocks => Ok blocks
  end.

(** Whether a fence starts at some position of [s] when two backticks
    follow it: exactly the case in which the leftmost fence of [s]
    followed by a fence is not the one that follows [s]. *)
Fixpoint fence_begins_within (s : string) : bool :=
  match s with
  | EmptyString => false
  | String c s' =>
      bool_decide (is_Some (after_fence (s +:+ "``")))
      || fence_begins_within s'
  end.

(** Modelled from the spec: [SparkUtils.get_dataframe_results] followed by
    [str], whose module [pyspark_ai/spark_utils.py] is not among the
    sources.  Section 4.1: "On success, serializes the returned rows into a
    single string (empty string if zero rows)".  The rows are those that
    [collect] returns for the data frame; the text for one or more rows is
    left to [render]. *)
Definition spec_get_dataframe_results {Session DataFrame Row : Type}
    (collect : DataFrame -> Session -> Outcome (list Row) * Session)
    (render : list Row -> string)
    (df : DataFrame) (s : Session) : Outcome PyObj * Session :=
  match collect df s with
  | (Ok rows, s') =>
      (Ok {| builtin_str := match rows with [] => EmptyString | _ => render rows end |}, s')
  | (Raise e, s') => (Raise e, s')
  end.

(** The error taxonomy of the specification (its section 7), read on the
    Python exception classes.  The module raises [ValueError] with the
    message [pyspark_not_installed] for a missing dependency and
    [NotImplementedError] for an asynchronous call; the specification sets
    InvalidInput apart from out-of-range index errors and from errors that
    surface from a downstream library, so among the classes of [exn] only a
    [ValueError] with another message can stand for it. *)
Inductive ErrorKind : Type :=
  | EngineExecutionError
  | MissingDependency
  | UnsupportedOperation
  | InvalidInput
  | Unclassified.

Definition spec_error_kind (e : exn) : ErrorKind :=
  match e with
  | PySparkException _ => EngineExecutionError
  | NotImplementedError _ => UnsupportedOperation
  | ValueError msg =>
      if String.eqb msg pyspark_not_installed
      then MissingDependency else InvalidInput
  | IndexError _ | TypeError _ | OtherException _ _ => Unclassified
  end.

(** ** Vocabulary of the statements *)

Section Vocabulary.
Context `{C : Collaborators}.

(** The world after calls [evs] that left the session in state [s]. *)
Definition with_trace (w : World) (s : Session) (evs : list Event) : World :=
  {| session := s; disk := disk w; trace := trace w ++ evs |}.

(** The world after an index was written under [path]. *)
Definition with_index (w : World) (path : string) (idx : Index)
    (evs : list Event) : World :=
  {| session := session w; disk := <[path := IndexDir idx]> (disk w);
     trace := trace w ++ evs |}.

(** [docs[0].page_content] of a search result. *)
Definition top_match (found : Outcome (list Document)) : Outcome string :=
  match found with
  | Raise e => Raise e
  | Ok [] => Raise (IndexError "list index out of range")
  | Ok (doc :: _) => Ok (page_content doc)
  end.

End Vocabulary.

(** The queries sent to the SQL engine, read off a trace. *)
Definition sql_queries (t : list Event) : list string :=
  omap (fun ev => match ev with EvSql q => Some q | _ => None end) t.


(** The path that [vector_similarity_search] takes as supplied: its two
    tests [if vector_store_path] hold for a non-empty string only. *)
Definition usable_path (path : option string) : option string :=
  match path with
  | Some p => if truthy p then Some p else None
  | None => None
  end.

(** How often a character occurs in a string, and whether it does. *)
Fixpoint count_char (c : Ascii.ascii) (s : string) : nat :=
  match s with
  | EmptyString => 0
  | String c' s' => (if Ascii.eqb c' c then 1 else 0) + count_char c s'
  end.

Definition contains_char (c : Ascii.ascii) (s : string) : bool :=
  negb (Nat.eqb (count_char c s) 0).

(** ** A small concrete world *)

(** An instance of the collaborators on which the tools can be run: an
    engine that knows one table, and an index that ranks the texts equal to
    the query first. *)
Module Demo.

Definition row : Type := list (string * string).

Definition employees : list row :=
  [[("name", "Alice")]; [("name", "Bob")]; [("name", "Bobby")]].

Definition sql (q : string) (s : list string)
    : Outcome (list row) * list string :=
  if String.eqb q "select distinct `name` from employees"
  then (Ok employees, s)
  else if String.eqb q "select name from employees where 1 = 0"
  then (Ok [], s)
  else if String.eqb q "drop table employees"
  then (Raise (OtherException "Py4JNetworkError"
                 "Answer from Java side is empty"), q :: s)
  else (Raise (PySparkException
                 ("[PARSE_SYNTAX_ERROR] Syntax error at or near " +:+ q)), s).

Definition getitem_row (r : row) (col : string) : Outcome PyObj :=
  match list_find (fun kv => String.eqb (fst kv) col = true) r with
  | Some (_, (_, v)) => Ok {| builtin_str := v |}
  | None => Raise (ValueError col)
  end.

Definition render (rows : list row) : string :=
  String.concat "; " (map (fun r => String.concat "," (map snd r)) rows).

(** As langchain's FAISS behaves: iterating over [None] is a [TypeError],
    and reading the dimension off the first embedding of an empty list is an
    [IndexError]. *)
Definition from_texts (corpus : option (list string))
    : Outcome (list string) :=
  match corpus with
  | None => Raise (TypeError "'NoneType' object is not iterable")
  | Some [] => Raise (IndexError "list index out of range")
  | Some texts => Ok texts
  end.

Definition search (idx : list string) (text : string)
    : Outcome (list Document) :=
  Ok (map (fun t => {| page_content := t |})
        (filter (fun t => String.eqb t text = true) idx
         ++ filter (fun t => String.eqb t text = false) idx)).

#[export] Instance collaborators : Collaborators := {|
  Session := list string;
  DataFrame := list row;
  Row := row;
  Index := list string;
  pyspark_errors_importable := true;
  spark_sql := sql;
  df_collect := fun df s => (Ok df, s);
  row_getitem := getitem_row;
  get_dataframe_results :=
    spec_get_dataframe_results (fun df s => (Ok df, s)) render;
  extract_code_blocks := spec_extract_code_blocks (fun text => Ok [text]);
  FAISS_from_texts := from_texts;
  similarity_search := search;
|}.

Definition w0 : World :=
  {| session := []; disk := ∅; trace := [] |}.

(** A world in which an index was saved earlier under [employees_name],
    when the view held one name only. *)
Definition w_saved : World :=
  {| session := [];
     disk := {[ "employees_name" := IndexDir ["Bobby"] ]};
     trace := [] |}.

(** The same collaborators on an installation whose pyspark has no
    [pyspark.errors] module. *)
Definition without_pyspark_errors : Collaborators := {|
  Session := list string;
  DataFrame := list row;
  Row := row;
  Index := list string;
  pyspark_errors_importable := false;
  spark_sql := sql;
  df_collect := fun df s => (Ok df, s);
  row_getitem := getitem_row;
  get_dataframe_results :=
    spec_get_dataframe_results (fun df s => (Ok df, s)) render;
  extract_code_blocks := spec_extract_code_blocks (fun text => Ok [text]);
  FAISS_from_texts := from_texts;
  similarity_search := search;
|}.

Definition w0_without : @World without_pyspark_errors :=
  @Build_World without_pyspark_errors [] ∅ [].

End Demo.

(** * Properties *)

(** ** Stepping through collaborator calls *)

Section Steps.
Context `{C : Collaborators}.

Lemma call_spark_sql (q : string) (w : World) :
  (run log (EvSql q) then on_session (spark_sql q)) w
  = (fst (spark_sql q (session w)),
     with_trace w (snd (spark_sql q (session w))) [EvSql q]).
Proof.
  unfold bind, log, on_session, with_trace; simpl.
  destruct (spark_sql q (session w)); reflexivity.
Qed.

Lemma call_get_dataframe_results (df : DataFrame) (w : World) :
  (run log EvResults then on_session (get_dataframe_results df)) w
  = (fst (get_dataframe_results df (session w)),
     with_trace w (snd (get_dataframe_results df (session w))) [EvResults]).
Proof.
  unfold bind, log, on_session, with_trace; simpl.
  destruct (get_dataframe_results df (session w)); reflexivity.
Qed.

Lemma call_df_collect (df : DataFrame) (w : World) :
  (run log EvCollect then on_session (df_collect df)) w
  = (fst (df_collect df (session w)),
     with_trace w (snd (df_collect df (session w))) [EvCollect]).
Proof.
  unfold bind, log, on_session, with_trace; simpl.
  destruct (df_collect df (session w)); reflexivity.
Qed.

Lemma with_trace_twice (w : World) (s s' : Session) (evs evs' : list Event) :
  with_trace (with_trace w s evs) s' evs' = with_trace w s' (evs ++ evs').
Proof. unfold with_trace; simpl. by rewrite <- app_assoc. Qed.

(** What [_run_command] does, stage by stage. *)
Lemma _run_command_unfold (command : string) (w : World) :
  QuerySparkSQLTool._run_command command w
  = match spark_sql command (session w) with
    | (Raise e, s1) => (Raise e, with_trace w s1 [EvSql command])
    | (Ok df, s1) =>
        match get_dataframe_results df s1 with
        | (Raise e, s2) =>
            (Raise e, with_trace w s2 [EvSql command; EvResults])
        | (Ok r, s2) =>
            (Ok (builtin_str r), with_trace w s2 [EvSql command; EvResults])
        end
    end.
Proof.
  unfold QuerySparkSQLTool._run_command.
  unfold bind at 1. rewrite call_spark_sql.
  destruct (spark_sql command (session w)) as [[df|e] s1]; simpl; [|done].
  unfold bind at 1. rewrite call_get_dataframe_results. simpl.
  destruct (get_dataframe_results df s1) as [[r|e] s2]; simpl;
    by rewrite with_trace_twice.
Qed.

(** What the [try] body of the validation tool does, stage by stage. *)
Lemma _run_body_unfold (query : string) (w : World) :
  QueryValidationTool._run_body query w
  = match extract_code_blocks query with
    | Raise e => (Raise e, w)
    | Ok [] => (Raise (IndexError "list index out of range"), w)
    | Ok (actual_query :: _) =>
        match spark_sql actual_query (session w) with
        | (Raise e, s1) => (Raise e, with_trace w s1 [EvSql actual_query])
        | (Ok _, s1) => (Ok "OK", with_trace w s1 [EvSql actual_query])
        end
    end.
Proof.
  unfold QueryValidationTool._run_body.
  unfold bind at 1, lift at 1.
  destruct (extract_code_blocks query) as [[|q blocks]|e]; try done.
  unfold bind at 1, lift at 1, getitem; simpl.
  unfold bind at 1. rewrite call_spark_sql.
  by destruct (spark_sql q (session w)) as [[df|e] s1].
Qed.

End Steps.

(** ** QuerySparkSQLTool and QueryValidationTool *)

Section SqlTools.
Context `{C : Collaborators}.

(** C1.  When the SQL engine raises its exception for a query, either in
    [spark.sql] or while the results are fetched, [_run] and [_run_no_throw]
    return the string "Error: " followed by the engine's message; nothing is
    raised.  (That the engine raises a [PySparkException] presupposes that
    [pyspark.errors] can be imported.) *)
Theorem engine_error_returned_as_string
    (query msg : string) (w : World) (s1 : Session) :
  pyspark_errors_importable = true ->
  (spark_sql query (session w) = (Raise (PySparkException msg), s1)
   \/ exists df s0,
        spark_sql query (session w) = (Ok df, s0)
        /\ get_dataframe_results df s0 = (Raise (PySparkException msg), s1)) ->
  fst (QuerySparkSQLTool._run query w) = Ok ("Error: " +:+ msg)
  /\ fst (QuerySparkSQLTool._run_no_throw query w) = Ok ("Error: " +:+ msg).
Proof.
  intros Himp Hraise.
  assert (fst (QuerySparkSQLTool._run_no_throw query w)
          = Ok ("Error: " +:+ msg)) as H; [|by split].
  unfold QuerySparkSQLTool._run_no_throw. rewrite Himp.
  unfold try_except_PySparkException. rewrite _run_command_unfold.
  destruct Hraise as [Hsql | (df & s0 & Hsql & Hres)].
  - by rewrite Hsql.
  - by rewrite Hsql, Hres.
Qed.

(** However the engine behaves, [_run_no_throw] never lets its exception
    out. *)
Lemma _run_no_throw_no_engine_exception (query msg : string) (w : World) :
  fst (QuerySparkSQLTool._run_no_throw query w) <> Raise (PySparkException msg).
Proof.
  unfold QuerySparkSQLTool._run_no_throw, try_except_PySparkException, raise.
  destruct pyspark_errors_importable; [|done].
  by destruct (QuerySparkSQLTool._run_command query w) as [[r|[]] w'].
Qed.

(** Without [pyspark.errors] both SQL tools raise [ValueError] before they
    touch the engine; the taxonomy reads it as MissingDependency. *)
Lemma missing_dependency_raises (query : string) (w : World) :
  pyspark_errors_importable = false ->
  QuerySparkSQLTool._run query w = (Raise (ValueError pyspark_not_installed), w)
  /\ QueryValidationTool._run query w
     = (Raise (ValueError pyspark_not_installed), w)
  /\ spec_error_kind (ValueError pyspark_not_installed) = MissingDependency.
Proof.
  intros Himp.
  unfold QuerySparkSQLTool._run, QuerySparkSQLTool._run_no_throw,
    QueryValidationTool._run.
  by rewrite Himp.
Qed.

(** C8.  With result serialization as the specification describes it, a
    query that the engine accepts and that yields zero rows makes [_run]
    return the empty string, which is no error string. *)
Theorem zero_rows_give_empty_string
    (render : list Row -> string) (query : string) (w : World)
    (df : DataFrame) (s1 s2 : Session) :
  pyspark_errors_importable = true ->
  get_dataframe_results = spec_get_dataframe_results df_collect render ->
  spark_sql query (session w) = (Ok df, s1) ->
  df_collect df s1 = (Ok [], s2) ->
  QuerySparkSQLTool._run query w
  = (Ok EmptyString, with_trace w s2 [EvSql query; EvResults])
  /\ String.prefix "Error: " EmptyString = false.
Proof.
  intros Himp Hspec Hsql Hrows. split; [|done].
  unfold QuerySparkSQLTool._run, QuerySparkSQLTool._run_no_throw.
  rewrite Himp. unfold try_except_PySparkException.
  rewrite _run_command_unfold, Hsql, Hspec.
  unfold spec_get_dataframe_results. by rewrite Hrows.
Qed.

(** C10.  The [except] clause of both SQL tools catches the engine's
    exception class only.  An exception [e] of any other class propagates:
    from [spark.sql] and from result serialization in [_run_no_throw], and
    from code-block extraction, from indexing an empty list of blocks, and
    from [spark.sql] in the validation tool. *)
Theorem other_exceptions_propagate (e : exn) (query : string) (w : World) :
  pyspark_errors_importable = true ->
  is_PySparkException e = false ->
  (forall s1,
     spark_sql query (session w) = (Raise e, s1) ->
     fst (QuerySparkSQLTool._run_no_throw query w) = Raise e)
  /\ (forall df s1 s2,
        spark_sql query (session w) = (Ok df, s1) ->
        get_dataframe_results df s1 = (Raise e, s2) ->
        fst (QuerySparkSQLTool._run_no_throw query w) = Raise e)
  /\ (extract_code_blocks query = Raise e ->
      fst (QueryValidationTool._run query w) = Raise e)
  /\ (extract_code_blocks query = Ok [] ->
      fst (QueryValidationTool._run query w)
      = Raise (IndexError "list index out of range"))
  /\ (forall actual_query blocks s1,
        extract_code_blocks query = Ok (actual_query :: blocks) ->
        spark_sql actual_query (session w) = (Raise e, s1) ->
        fst (QueryValidationTool._run query w) = Raise e).
Proof.
  intros Himp He.
  unfold QuerySparkSQLTool._run_no_throw, QueryValidationTool._run.
  rewrite Himp. unfold try_except_PySparkException.
  rewrite _run_command_unfold, _run_body_unfold.
  repeat split.
  - intros s1 ->. by destruct e.
  - intros df s1 s2 -> ->. by destruct e.
  - intros ->. by destruct e.
  - by intros ->.
  - intros q blocks s1 -> ->. by destruct e.
Qed.

End SqlTools.

(** C9.  The asynchronous entry point of each of the three tools raises
    [NotImplementedError], which the taxonomy reads as UnsupportedOperation,
    and leaves the world as it was: nothing is sent to the engine, no index
    is built, loaded or saved. *)
Theorem arun_not_implemented `{C : Collaborators}
    (query : string) (args : list string) (w : World) :
  (exists msg,
     QuerySparkSQLTool._arun query w = (Raise (NotImplementedError msg), w))
  /\ (exists msg,
        QueryValidationTool._arun args w = (Raise (NotImplementedError msg), w))
  /\ (exists msg,
        SimilarValueTool._arun args w = (Raise (NotImplementedError msg), w))
  /\ (forall msg, spec_error_kind (NotImplementedError msg) = UnsupportedOperation).
Proof. repeat split; by eexists. Qed.

(** ** VectorSearchUtil *)

Section VectorSearch.
Context `{C : Collaborators}.

Lemma search_step (vector_db : Index) (search_text : string) (w : World) :
  (let* docs := (run log (EvSearch search_text)
                 then lift (similarity_search vector_db search_text)) in
   let* doc := lift (getitem docs 0) in
   ret (page_content doc)) w
  = (top_match (similarity_search vector_db search_text),
     with_trace w (session w) [EvSearch search_text]).
Proof.
  unfold bind, log, lift, ret, getitem, top_match, with_trace; simpl.
  by destruct (similarity_search vector_db search_text) as [[|doc docs]|e].
Qed.

(** An index persisted under a usable path is loaded and searched. *)
Lemma vector_similarity_search_load
    (col_lst : option (list string)) (p search_text : string)
    (w : World) (idx : Index) :
  truthy p = true ->
  disk w !! p = Some (IndexDir idx) ->
  VectorSearchUtil.vector_similarity_search col_lst (Some p) search_text w
  = (top_match (similarity_search idx search_text),
     with_trace w (session w) [EvLoad p; EvSearch search_text]).
Proof.
  intros Hp Hidx. unfold VectorSearchUtil.vector_similarity_search.
  rewrite Hp. unfold bind at 1, VectorSearchUtil.os_path_exists at 1.
  rewrite Hidx, bool_decide_eq_true_2 by eauto.
  unfold bind at 1, VectorSearchUtil.FAISS_load_local, bind at 1, log at 1.
  simpl. rewrite Hidx, search_step. unfold with_trace; simpl.
  by rewrite <- app_assoc.
Qed.

(** With nothing under the path, the corpus is handed to the index
    builder, and an exception of the builder ends the call. *)
Lemma vector_similarity_search_build_fails
    (col_lst : option (list string)) (path : option string)
    (search_text : string) (w : World) (e : exn) :
  (forall p, path = Some p -> truthy p = true -> disk w !! p = None) ->
  FAISS_from_texts col_lst = Raise e ->
  VectorSearchUtil.vector_similarity_search col_lst path search_text w
  = (Raise e, with_trace w (session w) [EvBuild col_lst]).
Proof.
  intros Hnone Hbuild. unfold VectorSearchUtil.vector_similarity_search.
  assert ((match path with
           | Some p => if truthy p then VectorSearchUtil.os_path_exists p
                       else ret false
           | None => ret false
           end) w = (Ok false, w)) as Hfound.
  { destruct path as [p|]; [|done]. destruct (truthy p) eqn:Hp; [|done].
    unfold VectorSearchUtil.os_path_exists.
    rewrite (Hnone p eq_refl Hp), bool_decide_eq_false_2; [done|].
    by intros [? ?]. }
  unfold bind at 1. rewrite Hfound.
  destruct path as [p|]; unfold bind at 1, bind at 1, bind at 1, log at 1,
    lift at 1; simpl; by rewrite Hbuild.
Qed.

(** With nothing under a usable path, the index built from the corpus is
    saved there and searched. *)
Lemma vector_similarity_search_build_save
    (col_lst : option (list string)) (p search_text : string)
    (w : World) (idx : Index) :
  truthy p = true ->
  disk w !! p = None ->
  FAISS_from_texts col_lst = Ok idx ->
  VectorSearchUtil.vector_similarity_search col_lst (Some p) search_text w
  = (top_match (similarity_search idx search_text),
     with_index w p idx [EvBuild col_lst; EvSave p; EvSearch search_text]).
Proof.
  intros Hp Hnone Hbuild. unfold VectorSearchUtil.vector_similarity_search.
  rewrite Hp. unfold bind at 1, VectorSearchUtil.os_path_exists at 1.
  rewrite Hnone, bool_decide_eq_false_2 by (by intros [? ?]).
  unfold bind at 1, bind at 1, bind at 1, log at 1, lift at 1; simpl.
  rewrite Hbuild.
  unfold bind at 1, VectorSearchUtil.save_local, bind at 1, log at 1; simpl.
  unfold ret at 1. rewrite search_step.
  unfold with_trace, with_index; simpl.
  by rewrite <- !app_assoc.
Qed.

(** Without a usable path, the index built from the corpus is searched
    and nothing is saved. *)
Lemma vector_similarity_search_build_only
    (col_lst : option (list string)) (path : option string)
    (search_text : string) (w : World) (idx : Index) :
  truthy_opt path = false ->
  FAISS_from_texts col_lst = Ok idx ->
  VectorSearchUtil.vector_similarity_search col_lst path search_text w
  = (top_match (similarity_search idx search_text),
     with_trace w (session w) [EvBuild col_lst; EvSearch search_text]).
Proof.
  intros Hpath Hbuild. unfold VectorSearchUtil.vector_similarity_search.
  destruct path as [p|]; simpl in Hpath; rewrite ?Hpath;
    unfold bind at 1, ret at 1;
    unfold bind at 1, bind at 1, bind at 1, log at 1, lift at 1; simpl;
    rewrite Hbuild; unfold bind at 1, ret at 1, ret at 1;
    rewrite search_step; unfold with_trace; simpl;
    by rewrite <- !app_assoc.
Qed.

(** The vector search never talks to the SQL engine. *)
Lemma vector_similarity_search_no_sql
    (col_lst : option (list string)) (path : option string)
    (search_text : string) (w : World) :
  let w' := snd (VectorSearchUtil.vector_similarity_search
                   col_lst path search_text w) in
  session w' = session w /\ sql_queries (trace w') = sql_queries (trace w).
Proof.
  assert (forall (r : Outcome string) s evs,
            Forall (fun ev => forall q, ev <> EvSql q) evs ->
            let w' := snd (r, with_trace w s evs) in
            sql_queries (trace w') = sql_queries (trace w)) as Hquiet.
  { intros r s evs Hevs. simpl. unfold sql_queries. rewrite omap_app.
    rewrite <- (app_nil_r (omap _ (trace w))) at 2. f_equal.
    induction Hevs as [|ev evs Hev _ IH]; [done|].
    destruct ev; try exact IH. by destruct (Hev query). }
  assert (truthy_opt path = false
          \/ exists p, path = Some p /\ truthy p = true) as [Hpath|(p & -> & Hp)].
  { destruct path as [p|]; [|by left]. simpl.
    destruct (truthy p) eqn:Hp; [right; by exists p|by left]. }
  - (* no usable path: the index is built, nothing is saved *)
    destruct (FAISS_from_texts col_lst) as [idx|e] eqn:Hbuild.
    + rewrite (vector_similarity_search_build_only _ _ _ _ idx) by done.
      split; [done|]. apply Hquiet. by repeat constructor.
    + rewrite (vector_similarity_search_build_fails _ _ _ _ e); [| |done].
      * split; [done|]. apply Hquiet. by repeat constructor.
      * intros p ->. simpl in Hpath. by rewrite Hpath.
  - destruct (disk w !! p) as [[idx'|]|] eqn:Hdisk.
    + rewrite (vector_similarity_search_load _ _ _ _ idx') by done.
      split; [done|]. apply Hquiet. by repeat constructor.
    + (* what lies under the path is no index: loading fails *)
      unfold VectorSearchUtil.vector_similarity_search,
        VectorSearchUtil.os_path_exists, VectorSearchUtil.FAISS_load_local,
        bind, log, lift, ret.
      rewrite Hp; simpl. rewrite Hdisk, bool_decide_eq_true_2 by eauto.
      simpl. rewrite Hdisk; simpl. split; [done|].
      apply (Hquiet (Ok EmptyString) (session w) [EvLoad p]).
      by repeat constructor.
    + destruct (FAISS_from_texts col_lst) as [idx|e] eqn:Hbuild.
      * rewrite (vector_similarity_search_build_save _ _ _ _ idx) by done.
        split; [done|].
        apply (Hquiet (Ok EmptyString) (session w)
                 [EvBuild col_lst; EvSave p; EvSearch search_text]).
        by repeat constructor.
      * rewrite (vector_similarity_search_build_fails _ _ _ _ e); [| |done].
        -- split; [done|]. apply Hquiet. by repeat constructor.
        -- by intros ? [= <-] _.
Qed.

(** C3.  For a usable (non-empty) path: when an index lies under the path
    it is loaded and searched whatever the corpus argument is, and nothing
    is built; when nothing lies under the path and the corpus can be
    embedded, the new index is saved under the path, and calling again with
    the same corpus, path and text loads that index, builds nothing and
    gives the same top match. *)
Theorem persisted_index_loaded_or_created
    (col_lst : option (list string)) (p search_text : string) (w : World) :
  truthy p = true ->
  (forall idx other_lst,
     disk w !! p = Some (IndexDir idx) ->
     VectorSearchUtil.vector_similarity_search col_lst (Some p) search_text w
     = (top_match (similarity_search idx search_text),
        with_trace w (session w) [EvLoad p; EvSearch search_text])
     /\ VectorSearchUtil.vector_similarity_search
          other_lst (Some p) search_text w
        = VectorSearchUtil.vector_similarity_search
            col_lst (Some p) search_text w)
  /\ (forall idx,
        disk w !! p = None ->
        FAISS_from_texts col_lst = Ok idx ->
        let first := VectorSearchUtil.vector_similarity_search
                       col_lst (Some p) search_text w in
        let second := VectorSearchUtil.vector_similarity_search
                        col_lst (Some p) search_text (snd first) in
        disk (snd first) = <[p := IndexDir idx]> (disk w)
        /\ trace (snd first)
           = trace w ++ [EvBuild col_lst; EvSave p; EvSearch search_text]
        /\ fst second = fst first
        /\ trace (snd second)
           = trace (snd first) ++ [EvLoad p; EvSearch search_text]
        /\ disk (snd second) = disk (snd first)).
Proof.
  intros Hp. split.
  - intros idx other_lst Hidx.
    by rewrite !(vector_similarity_search_load _ _ _ _ idx).
  - intros idx Hnone Hbuild first second. subst first second.
    rewrite (vector_similarity_search_build_save _ _ _ _ idx) by done.
    simpl.
    rewrite (vector_similarity_search_load _ _ _ _ idx)
      by (done || apply lookup_insert_eq).
    done.
Qed.

(** C4, as the code has it.  When the corpus is null or empty and nothing
    lies under the path, the operation checks nothing itself: the corpus
    goes to the index builder as it is, and an exception that the builder
    raises reaches the caller unchanged, with nothing saved and nothing
    searched. *)
Theorem builder_error_surfaces
    (col_lst : option (list string)) (path : option string)
    (search_text : string) (w : World) (e : exn) :
  col_lst = None \/ col_lst = Some [] ->
  (forall p, path = Some p -> disk w !! p = None) ->
  FAISS_from_texts col_lst = Raise e ->
  VectorSearchUtil.vector_similarity_search col_lst path search_text w
  = (Raise e, with_trace w (session w) [EvBuild col_lst]).
Proof.
  intros _ Hnone Hbuild.
  apply vector_similarity_search_build_fails; [|done].
  intros p Hpath _. by apply Hnone.
Qed.

End VectorSearch.

(** ** SimilarValueTool *)

(** [split] always gives at least one field. *)
Lemma py_split_fields (sep : Ascii.ascii) (s : string) :
  exists field fields, py_split sep s = field :: fields.
Proof.
  induction s as [|c s (field & fields & IH)]; simpl; [by eexists _, _|].
  destruct (Ascii.eqb c sep); [by eexists _, _|].
  rewrite IH. by eexists _, _.
Qed.

Section SimilarValue.
Context `{C : Collaborators}.

(** The three positional reads of [_run] on an instruction of at least
    three fields. *)
Lemma _run_parsed (vector_store_dir : option string) (inputs : string)
    (search_text col temp_name : string) (more : list string) (w : World) :
  py_split "|" inputs = search_text :: col :: temp_name :: more ->
  SimilarValueTool._run vector_store_dir inputs w
  = (if negb (truthy_opt vector_store_dir) then
       let* new_df :=
         (run log (EvSql (SimilarValueTool.distinct_query col temp_name))
          then on_session
                 (spark_sql (SimilarValueTool.distinct_query col temp_name))) in
       let* rows := (run log EvCollect then on_session (df_collect new_df)) in
       let* col_lst := lift (SimilarValueTool.column_strings col rows) in
       let* p0 := lift (py_add vector_store_dir temp_name) in
       VectorSearchUtil.vector_similarity_search
         (Some col_lst) (Some (p0 +:+ "_" +:+ col)) search_text
     else
       VectorSearchUtil.vector_similarity_search None None search_text) w.
Proof. intros Hsplit. unfold SimilarValueTool._run. by rewrite Hsplit. Qed.

(** C7.  With a vector-store directory configured (a non-empty string), a
    well-formed instruction makes [_run] hand a null corpus and a null path
    to the vector search, and that is all it does: no query reaches the SQL
    engine and the session is left as it was. *)
Theorem configured_dir_skips_query
    (dir inputs search_text col temp_name : string) (w : World) :
  truthy dir = true ->
  py_split "|" inputs = [search_text; col; temp_name] ->
  SimilarValueTool._run (Some dir) inputs w
  = VectorSearchUtil.vector_similarity_search None None search_text w
  /\ sql_queries (trace (snd (SimilarValueTool._run (Some dir) inputs w)))
     = sql_queries (trace w)
  /\ session (snd (SimilarValueTool._run (Some dir) inputs w)) = session w.
Proof.
  intros Hdir Hsplit.
  rewrite (_run_parsed _ _ _ _ _ _ _ Hsplit). simpl. rewrite Hdir. simpl.
  destruct (vector_similarity_search_no_sql None None search_text w)
    as [Hsession Hsql].
  done.
Qed.

(** C2, on the code.  With [vector_store_dir] left at [None], a well-formed
    instruction makes [_run] send the distinct-values query and collect the
    values as strings, and then raise [TypeError] where the directory is
    concatenated with the view name; the vector search is never reached, so
    no value is returned. *)
Theorem unconfigured_dir_raises_TypeError
    (inputs search_text col temp_name : string) (w : World)
    (df : DataFrame) (rows : list Row) (values : list string)
    (s1 s2 : Session) :
  py_split "|" inputs = [search_text; col; temp_name] ->
  spark_sql (SimilarValueTool.distinct_query col temp_name) (session w)
  = (Ok df, s1) ->
  df_collect df s1 = (Ok rows, s2) ->
  SimilarValueTool.column_strings col rows = Ok values ->
  SimilarValueTool._run None inputs w
  = (Raise (TypeError "unsupported operand type(s) for +: 'NoneType' and 'str'"),
     with_trace w s2
       [EvSql ("select distinct `" +:+ col +:+ "` from " +:+ temp_name);
        EvCollect]).
Proof.
  intros Hsplit Hsql Hrows Hvalues.
  rewrite (_run_parsed _ _ _ _ _ _ _ Hsplit). simpl.
  unfold bind at 1. rewrite call_spark_sql, Hsql. simpl.
  unfold bind at 1. rewrite call_df_collect. simpl. rewrite Hrows. simpl.
  unfold bind at 1, lift at 1. rewrite Hvalues.
  unfold bind, lift. simpl. by rewrite with_trace_twice.
Qed.

(** The same instruction with the directory set to the empty string: the
    values collected from the engine and the path [temp_name_col] go to the
    vector search. *)
Lemma empty_dir_searches_collected_values
    (inputs search_text col temp_name : string) (w : World)
    (df : DataFrame) (rows : list Row) (values : list string)
    (s1 s2 : Session) :
  py_split "|" inputs = [search_text; col; temp_name] ->
  spark_sql (SimilarValueTool.distinct_query col temp_name) (session w)
  = (Ok df, s1) ->
  df_collect df s1 = (Ok rows, s2) ->
  SimilarValueTool.column_strings col rows = Ok values ->
  SimilarValueTool._run (Some EmptyString) inputs w
  = VectorSearchUtil.vector_similarity_search
      (Some values) (Some (temp_name +:+ "_" +:+ col)) search_text
      (with_trace w s2
         [EvSql (SimilarValueTool.distinct_query col temp_name); EvCollect]).
Proof.
  intros Hsplit Hsql Hrows Hvalues.
  rewrite (_run_parsed _ _ _ _ _ _ _ Hsplit). simpl.
  unfold bind at 1. rewrite call_spark_sql, Hsql. simpl.
  unfold bind at 1. rewrite call_df_collect. simpl. rewrite Hrows. simpl.
  unfold bind at 1, lift at 1. rewrite Hvalues.
  unfold bind at 1, lift at 1. simpl. by rewrite with_trace_twice.
Qed.

(** C6, as the code has it.  An instruction with fewer than three
    pipe-separated fields makes [_run] raise Python's [IndexError] at the
    first positional read past the end, before anything is sent to the SQL
    engine or to the vector store; the input is not cut short silently. *)
Theorem too_few_fields_raise_IndexError
    (vector_store_dir : option string) (inputs : string) (w : World) :
  length (py_split "|" inputs) < 3 ->
  SimilarValueTool._run vector_store_dir inputs w
  = (Raise (IndexError "list index out of range"), w).
Proof.
  intros Hlen. unfold SimilarValueTool._run.
  destruct (py_split "|" inputs) as [|f0 [|f1 [|f2 more]]]; try done.
  simpl in Hlen. lia.
Qed.

End SimilarValue.

(** ** Code-block extraction and the validation tool *)

Lemma split_fence_cons (c : Ascii.ascii) (s : string) :
  split_fence (String c s)
  = match after_fence (String c s) with
    | Some rest => Some (EmptyString, rest)
    | None =>
        match split_fence s with
        | Some (before, rest) => Some (String c before, rest)
        | None => None
        end
    end.
Proof. reflexivity. Qed.

(** Whether a fence starts at the head of [s] followed by a fence depends
    on [s] and the first two backticks only. *)
Lemma after_fence_lookahead (c : Ascii.ascii) (s x : string) :
  after_fence (String c s +:+ "``") = None ->
  after_fence (String c s +:+ fence +:+ x) = None.
Proof.
  destruct s as [|c1 [|c2 s]]; simpl;
    repeat (destruct (Ascii.eqb _ backtick); simpl); done.
Qed.

Lemma after_fence_lookahead_inv (c : Ascii.ascii) (s x : string) :
  after_fence (String c s +:+ fence +:+ x) = None ->
  after_fence (String c s +:+ "``") = None.
Proof.
  destruct s as [|c1 [|c2 s]]; simpl;
    repeat (destruct (Ascii.eqb _ backtick); simpl); done.
Qed.

Lemma after_fence_Some (s rest : string) :
  after_fence s = Some rest -> s = fence +:+ rest.
Proof.
  destruct s as [|a [|b [|c s]]]; try done. simpl.
  destruct (Ascii.eqb_spec a backtick) as [->|]; [|done].
  destruct (Ascii.eqb_spec b backtick) as [->|]; [|done].
  destruct (Ascii.eqb_spec c backtick) as [->|]; [|done].
  by intros [= ->].
Qed.

(** What [split_fence] finds is the leftmost fence: the text is the part
    before, the fence and the part after, and no fence starts within the
    part before. *)
Lemma split_fence_sound (s before rest : string) :
  split_fence s = Some (before, rest) ->
  s = before +:+ fence +:+ rest /\ fence_begins_within before = false.
Proof.
  revert before. induction s as [|c s IH]; intros before; [done|].
  rewrite split_fence_cons.
  destruct (after_fence (String c s)) as [rest'|] eqn:Hhead.
  - intros [= <- <-]. split; [|done]. by apply after_fence_Some.
  - destruct (split_fence s) as [[before' rest']|] eqn:Htail; [|done].
    intros [= <- <-]. destruct (IH before' eq_refl) as [-> Hbefore].
    split; [done|]. cbn [fence_begins_within]. rewrite Hbefore.
    rewrite bool_decide_eq_false_2; [done|].
    rewrite (after_fence_lookahead_inv c before' rest' Hhead).
    by intros [? ?].
Qed.

(** When no fence starts within [pre], the leftmost fence of
    [pre ++ fence ++ x] is the one written after [pre]. *)
Lemma split_fence_leftmost (pre x : string) :
  fence_begins_within pre = false ->
  split_fence (pre +:+ fence +:+ x) = Some (pre, x).
Proof.
  induction pre as [|c pre IH]; intros Hpre.
  - reflexivity.
  - cbn [fence_begins_within] in Hpre.
    apply orb_false_iff in Hpre as [Hhead Htail].
    apply bool_decide_eq_false_1 in Hhead.
    change (String c pre +:+ fence +:+ x)
      with (String c (pre +:+ fence +:+ x)).
    rewrite split_fence_cons.
    change (String c (pre +:+ fence +:+ x))
      with (String c pre +:+ fence +:+ x).
    rewrite after_fence_lookahead.
    + by rewrite (IH Htail).
    + destruct (after_fence (String c pre +:+ "``")) eqn:Heq; [|done].
      destruct Hhead. by eexists.
Qed.

(** The first fenced block of prose, a fenced body and more text. *)
Lemma fenced_blocks_first (pre body post : string) :
  fence_begins_within pre = false ->
  fence_begins_within body = false ->
  exists more,
    fenced_blocks (pre +:+ fence +:+ body +:+ fence +:+ post) = body :: more.
Proof.
  intros Hpre Hbody. unfold fenced_blocks. cbn [blocks_from].
  rewrite (split_fence_leftmost pre _ Hpre).
  rewrite (split_fence_leftmost body _ Hbody).
  by eexists.
Qed.

Section Validation.
Context `{C : Collaborators}.

(** C5.  With code-block extraction as the specification describes it: for
    an input made of prose, a fenced block and more text, where the opening
    fence is the leftmost one and the closing fence the next one, [_run]
    sends the contents of that block, and nothing else, to the SQL engine
    once; it returns "OK" when the engine accepts the query and "Error: "
    followed by the engine's message when the engine raises its
    exception. *)
Theorem validation_runs_first_fenced_block
    (fallback : string -> Outcome (list string))
    (pre body post : string) (w : World) :
  pyspark_errors_importable = true ->
  extract_code_blocks = spec_extract_code_blocks fallback ->
  fence_begins_within pre = false ->
  fence_begins_within body = false ->
  let query := pre +:+ fence +:+ body +:+ fence +:+ post in
  (forall df s1,
     spark_sql body (session w) = (Ok df, s1) ->
     QueryValidationTool._run query w
     = (Ok "OK", with_trace w s1 [EvSql body]))
  /\ (forall msg s1,
        spark_sql body (session w) = (Raise (PySparkException msg), s1) ->
        QueryValidationTool._run query w
        = (Ok ("Error: " +:+ msg), with_trace w s1 [EvSql body])).
Proof.
  intros Himp Hspec Hpre Hbody query.
  destruct (fenced_blocks_first pre body post Hpre Hbody) as [more Hblocks].
  assert (extract_code_blocks query = Ok (body :: more)) as Hextract.
  { rewrite Hspec. unfold spec_extract_code_blocks, query.
    by rewrite Hblocks. }
  unfold QueryValidationTool._run. rewrite Himp.
  unfold try_except_PySparkException.
  rewrite _run_body_unfold, Hextract.
  split.
  - by intros df s1 ->.
  - by intros msg s1 ->.
Qed.

End Validation.

(** ** Runs on the concrete world *)

Section Runs.
Import Demo.
#[local] Existing Instance Demo.collaborators.

(** The engine rejects a query: the tool answers with the error text. *)
Lemma engine_error_returned_as_string_witness :
  fst (QuerySparkSQLTool._run "selec 1" w0)
  = Ok "Error: [PARSE_SYNTAX_ERROR] Syntax error at or near selec 1".
Proof.
  apply (engine_error_returned_as_string (C := collaborators) "selec 1"
           "[PARSE_SYNTAX_ERROR] Syntax error at or near selec 1" w0 []).
  - reflexivity.
  - left. reflexivity.
Defined.

(** A query without rows. *)
Lemma zero_rows_give_empty_string_witness :
  QuerySparkSQLTool._run "select name from employees where 1 = 0" w0
  = (Ok EmptyString,
     with_trace w0 []
       [EvSql "select name from employees where 1 = 0"; EvResults]).
Proof.
  apply (zero_rows_give_empty_string (C := collaborators) render
           "select name from employees where 1 = 0" w0 [] [] []);
    reflexivity.
Defined.

(** The connection to the JVM breaks: both tools let the exception pass. *)
Lemma other_exceptions_propagate_witness :
  fst (QuerySparkSQLTool._run_no_throw "drop table employees" w0)
  = Raise (OtherException "Py4JNetworkError" "Answer from Java side is empty")
  /\ fst (QueryValidationTool._run "drop table employees" w0)
     = Raise (OtherException "Py4JNetworkError" "Answer from Java side is empty").
Proof.
  pose proof (other_exceptions_propagate (C := collaborators)
                (OtherException "Py4JNetworkError"
                   "Answer from Java side is empty")
                "drop table employees" w0 eq_refl eq_refl)
    as (Hsql & _ & _ & _ & Hvalidate).
  split.
  - apply (Hsql ["drop table employees"]). reflexivity.
  - apply (Hvalidate "drop table employees" []
             ["drop table employees"]); reflexivity.
Defined.

(** Two searches in a row with nothing on disk at first: the first builds
    and saves, the second loads and gives the same answer. *)
Lemma persisted_index_loaded_or_created_witness :
  let corpus := Some ["Alice"; "Bob"; "Bobby"] in
  let first := VectorSearchUtil.vector_similarity_search
                 corpus (Some "store/employees_name") "Bob" w0 in
  let second := VectorSearchUtil.vector_similarity_search
                  corpus (Some "store/employees_name") "Bob" (snd first) in
  disk (snd first)
  = <["store/employees_name" := IndexDir ["Alice"; "Bob"; "Bobby"]]> (disk w0)
  /\ trace (snd first)
     = trace w0 ++ [EvBuild corpus; EvSave "store/employees_name";
                    EvSearch "Bob"]
  /\ fst second = fst first
  /\ trace (snd second)
     = trace (snd first) ++ [EvLoad "store/employees_name"; EvSearch "Bob"]
  /\ disk (snd second) = disk (snd first).
Proof.
  apply (persisted_index_loaded_or_created (C := collaborators)
           (Some ["Alice"; "Bob"; "Bobby"]) "store/employees_name" "Bob" w0
           eq_refl);
    reflexivity.
Defined.

(** An empty corpus and nothing on disk: the builder's [IndexError] reaches
    the caller. *)
Lemma builder_error_surfaces_witness :
  VectorSearchUtil.vector_similarity_search
    (Some []) (Some "store/employees_name") "Bob" w0
  = (Raise (IndexError "list index out of range"),
     with_trace w0 (session w0) [EvBuild (Some [])]).
Proof.
  apply (builder_error_surfaces (C := collaborators) (Some []) (Some "store/employees_name")
           "Bob" w0 (IndexError "list index out of range")).
  - right. reflexivity.
  - intros p [= <-]. reflexivity.
  - reflexivity.
Defined.

(** C4 as stated fails: with an empty corpus and nothing under the path the
    operation fails with the index builder's out-of-range [IndexError],
    which is no InvalidInput error. *)
Lemma empty_corpus_error_is_not_InvalidInput :
  fst (VectorSearchUtil.vector_similarity_search
         (Some []) (Some "store/employees_name") "Bob" w0)
  = Raise (IndexError "list index out of range")
  /\ ~ (exists e,
          fst (VectorSearchUtil.vector_similarity_search
                 (Some []) (Some "store/employees_name") "Bob" w0) = Raise e
          /\ spec_error_kind e = InvalidInput).
Proof.
  split; [reflexivity|].
  intros (e & Hraise & Hkind).
  assert (e = IndexError "list index out of range") as ->
    by (vm_compute in Hraise; congruence).
  discriminate Hkind.
Qed.

(** A directory is configured: the instruction goes to the vector search
    with neither corpus nor path. *)
Lemma configured_dir_skips_query_witness :
  SimilarValueTool._run (Some "store/") "Bob|name|employees" w0
  = VectorSearchUtil.vector_similarity_search None None "Bob" w0
  /\ sql_queries
       (trace (snd (SimilarValueTool._run
                      (Some "store/") "Bob|name|employees" w0)))
     = sql_queries (trace w0)
  /\ session (snd (SimilarValueTool._run
                     (Some "store/") "Bob|name|employees" w0))
     = session w0.
Proof.
  apply (configured_dir_skips_query (C := collaborators) "store/" "Bob|name|employees"
           "Bob" "name" "employees" w0); reflexivity.
Defined.

(** No directory is configured: the run ends in [TypeError]. *)
Lemma unconfigured_dir_raises_TypeError_witness :
  SimilarValueTool._run None "Bob|name|employees" w0
  = (Raise (TypeError
              "unsupported operand type(s) for +: 'NoneType' and 'str'"),
     with_trace w0 []
       [EvSql "select distinct `name` from employees"; EvCollect]).
Proof.
  apply (unconfigured_dir_raises_TypeError (C := collaborators) "Bob|name|employees"
           "Bob" "name" "employees" w0 employees employees
           ["Alice"; "Bob"; "Bobby"] [] []); reflexivity.
Defined.

(** Two fields only. *)
Lemma too_few_fields_raise_IndexError_witness :
  SimilarValueTool._run None "x|y" w0
  = (Raise (IndexError "list index out of range"), w0).
Proof.
  apply (too_few_fields_raise_IndexError (C := collaborators) None "x|y" w0).
  simpl. lia.
Defined.

(** C6 as stated fails: on ["x|y"] the tool raises the out-of-range
    [IndexError], which is no InvalidInput error. *)
Lemma two_fields_error_is_not_InvalidInput :
  fst (SimilarValueTool._run None "x|y" w0)
  = Raise (IndexError "list index out of range")
  /\ ~ (exists e,
          fst (SimilarValueTool._run None "x|y" w0) = Raise e
          /\ spec_error_kind e = InvalidInput).
Proof.
  split; [reflexivity|].
  intros (e & Hraise & Hkind).
  assert (e = IndexError "list index out of range") as ->
    by (vm_compute in Hraise; congruence).
  discriminate Hkind.
Qed.

(** A fenced query between two sentences. *)
Lemma validation_runs_first_fenced_block_witness :
  QueryValidationTool._run
    "Here is the query: ```select distinct `name` from employees``` Done."
    w0
  = (Ok "OK",
     with_trace w0 [] [EvSql "select distinct `name` from employees"]).
Proof.
  pose proof (validation_runs_first_fenced_block (C := collaborators)
                (fun text => Ok [text])
                "Here is the query: " "select distinct `name` from employees"
                " Done." w0 eq_refl eq_refl eq_refl eq_refl) as [Haccepted _].
  apply (Haccepted employees []). reflexivity.
Defined.

End Runs.

(** * Further properties of the tools *)

Lemma sql_queries_app (t1 t2 : list Event) :
  sql_queries (t1 ++ t2) = sql_queries t1 ++ sql_queries t2.
Proof. unfold sql_queries. apply omap_app. Qed.

(** ** The two SQL tools *)

Section SqlToolsMore.
Context `{C : Collaborators}.

(** X1.  Neither SQL tool ever raises the engine's exception to its caller,
    whatever the query, the engine and the helpers do: [_run] of the query
    tool and [_run] of the validation tool end in a value or in an
    exception of another class. *)
Theorem sql_tools_never_raise_engine_exception
    (query msg : string) (w : World) :
  fst (QuerySparkSQLTool._run query w) <> Raise (PySparkException msg)
  /\ fst (QueryValidationTool._run query w) <> Raise (PySparkException msg).
Proof.
  split; [apply _run_no_throw_no_engine_exception|].
  unfold QueryValidationTool._run, try_except_PySparkException, raise.
  destruct pyspark_errors_importable; [|done].
  by destruct (QueryValidationTool._run_body query w) as [[r|[]] w'].
Qed.

(** X2.  When [pyspark.errors] cannot be imported, both SQL tools raise
    [ValueError] with the installation hint and do nothing else: the engine
    is not called and the world is as before. *)
Theorem import_guard_stops_before_engine (query : string) (w : World) :
  pyspark_errors_importable = false ->
  QuerySparkSQLTool._run query w
  = (Raise (ValueError
              "pyspark is not installed. Please install it with `pip install pyspark`"),
     w)
  /\ QueryValidationTool._run query w
     = (Raise (ValueError
                 "pyspark is not installed. Please install it with `pip install pyspark`"),
        w).
Proof.
  intros Himp.
  destruct (missing_dependency_raises query w Himp) as (Hquery & Hvalid & _).
  by split.
Qed.

(** X3.  The query tool sends its input to the engine verbatim and exactly
    once, whether the engine accepts it, rejects it or breaks, and it never
    touches the disk. *)
Theorem query_sent_verbatim_once (query : string) (w : World) :
  pyspark_errors_importable = true ->
  sql_queries (trace (snd (QuerySparkSQLTool._run query w)))
  = sql_queries (trace w) ++ [query]
  /\ disk (snd (QuerySparkSQLTool._run query w)) = disk w.
Proof.
  intros Himp.
  unfold QuerySparkSQLTool._run, QuerySparkSQLTool._run_no_throw.
  rewrite Himp. unfold try_except_PySparkException, ret.
  rewrite _run_command_unfold.
  destruct (spark_sql query (session w)) as [[df|e] s1].
  - destruct (get_dataframe_results df s1) as [[r|e] s2];
      [|destruct e]; simpl; by rewrite sql_queries_app.
  - destruct e; simpl; by rewrite sql_queries_app.
Qed.

(** X4.  When the engine accepts the query and the results helper returns,
    the query tool returns [str] of the helper's value, whatever that text
    is, after one call to the engine and one to the helper, and leaves the
    session as the helper left it. *)
Theorem accepted_query_returns_results
    (query : string) (w : World) (df : DataFrame) (r : PyObj)
    (s1 s2 : Session) :
  pyspark_errors_importable = true ->
  spark_sql query (session w) = (Ok df, s1) ->
  get_dataframe_results df s1 = (Ok r, s2) ->
  QuerySparkSQLTool._run query w
  = (Ok (builtin_str r), with_trace w s2 [EvSql query; EvResults]).
Proof.
  intros Himp Hsql Hres.
  unfold QuerySparkSQLTool._run, QuerySparkSQLTool._run_no_throw.
  rewrite Himp. unfold try_except_PySparkException.
  by rewrite _run_command_unfold, Hsql, Hres.
Qed.

(** X5.  The validation tool sends at most one statement to the engine, the
    first block that the extraction helper returns; later blocks are not
    looked at, no rows are fetched, and the disk is not touched. *)
Theorem validation_sends_at_most_one_statement (query : string) (w : World) :
  let w' := snd (QueryValidationTool._run query w) in
  disk w' = disk w
  /\ (trace w' = trace w
      \/ exists actual_query blocks,
           extract_code_blocks query = Ok (actual_query :: blocks)
           /\ trace w' = trace w ++ [EvSql actual_query]).
Proof.
  unfold QueryValidationTool._run, try_except_PySparkException, raise, ret.
  destruct pyspark_errors_importable; [|by split; [|left]].
  rewrite _run_body_unfold.
  destruct (extract_code_blocks query) as [[|q blocks]|e] eqn:Hblocks.
  - by split; [|left].
  - destruct (spark_sql q (session w)) as [[df|e] s1];
      [|destruct e]; simpl; (split; [done|]); right; by exists q, blocks.
  - destruct e; by split; [|left].
Qed.

End SqlToolsMore.

(** ** The vector search *)

Section VectorSearchMore.
Context `{C : Collaborators}.

Lemma usable_path_None (path : option string) :
  usable_path path = None <-> truthy_opt path = false.
Proof. destruct path as [p|]; simpl; [|done]. by destruct (truthy p). Qed.

Lemma usable_path_Some (path : option string) (p : string) :
  usable_path path = Some p <-> path = Some p /\ truthy p = true.
Proof.
  split.
  - destruct path as [p'|]; simpl; [|done].
    destruct (truthy p') eqn:Hp'; [|done]. by intros [= ->].
  - intros [-> Hp]. simpl. by rewrite Hp.
Qed.

(** Every run of the search, by what lies under the path and by what the
    index builder answers. *)
Lemma vector_similarity_search_cases
    (col_lst : option (list string)) (path : option string)
    (search_text : string) (w : World) :
  VectorSearchUtil.vector_similarity_search col_lst path search_text w
  = match usable_path path with
    | Some p =>
        match disk w !! p with
        | Some (IndexDir idx) =>
            (top_match (similarity_search idx search_text),
             with_trace w (session w) [EvLoad p; EvSearch search_text])
        | Some OtherFile =>
            (Raise (OtherException "RuntimeError"
                      ("could not open " +:+ p +:+ " for reading")),
             with_trace w (session w) [EvLoad p])
        | None =>
            match FAISS_from_texts col_lst with
            | Ok idx =>
                (top_match (similarity_search idx search_text),
                 with_index w p idx
                   [EvBuild col_lst; EvSave p; EvSearch search_text])
            | Raise e => (Raise e, with_trace w (session w) [EvBuild col_lst])
            end
        end
    | None =>
        match FAISS_from_texts col_lst with
        | Ok idx =>
            (top_match (similarity_search idx search_text),
             with_trace w (session w) [EvBuild col_lst; EvSearch search_text])
        | Raise e => (Raise e, with_trace w (session w) [EvBuild col_lst])
        end
    end.
Proof.
  destruct (usable_path path) as [p|] eqn:Hpath.
  - apply usable_path_Some in Hpath as [-> Hp].
    destruct (disk w !! p) as [[idx|]|] eqn:Hdisk.
    + by apply vector_similarity_search_load.
    + unfold VectorSearchUtil.vector_similarity_search,
        VectorSearchUtil.os_path_exists, VectorSearchUtil.FAISS_load_local,
        bind, log, lift, ret.
      rewrite Hp; simpl. rewrite Hdisk, bool_decide_eq_true_2 by eauto.
      simpl. by rewrite Hdisk.
    + destruct (FAISS_from_texts col_lst) as [idx|e] eqn:Hbuild.
      * by apply vector_similarity_search_build_save.
      * apply vector_similarity_search_build_fails; [|done].
        by intros ? [= <-] _.
  - apply usable_path_None in Hpath.
    destruct (FAISS_from_texts col_lst) as [idx|e] eqn:Hbuild.
    + by apply vector_similarity_search_build_only.
    + apply vector_similarity_search_build_fails; [|done].
      intros p -> Hp. simpl in Hpath. congruence.
Qed.

(** X6.  The vector search never calls into Spark: the session is left as
    it was, and the calls it makes are index loads, builds, saves and
    searches only. *)
Theorem vector_search_never_calls_spark
    (col_lst : option (list string)) (path : option string)
    (search_text : string) (w : World) :
  let w' := snd (VectorSearchUtil.vector_similarity_search
                   col_lst path search_text w) in
  session w' = session w
  /\ exists evs,
       trace w' = trace w ++ evs
       /\ Forall (fun ev => match ev with
                            | EvSql _ | EvCollect | EvResults => False
                            | _ => True
                            end) evs.
Proof.
  rewrite vector_similarity_search_cases.
  destruct (usable_path path) as [p|];
    [destruct (disk w !! p) as [[idx|]|]|];
    repeat match goal with
           | |- context [match FAISS_from_texts col_lst with _ => _ end] =>
               destruct (FAISS_from_texts col_lst) as [idx'|e]
           end;
    simpl; (split; [done|]); eexists; (split; [done|]);
    by repeat constructor.
Qed.

(** X7.  The only write that the vector search ever makes is to save a
    freshly built index under a usable path where nothing was: in every
    other case the disk is as before, so an entry that exists is never
    overwritten or removed, and no other path is written. *)
Theorem vector_search_writes_only_new_index
    (col_lst : option (list string)) (path : option string)
    (search_text : string) (w : World) :
  let w' := snd (VectorSearchUtil.vector_similarity_search
                   col_lst path search_text w) in
  disk w' = disk w
  \/ exists p idx,
       path = Some p /\ truthy p = true /\ disk w !! p = None
       /\ FAISS_from_texts col_lst = Ok idx
       /\ disk w' = <[p := IndexDir idx]> (disk w).
Proof.
  rewrite vector_similarity_search_cases.
  destruct (usable_path path) as [p|] eqn:Hpath.
  - destruct (disk w !! p) as [[idx|]|] eqn:Hdisk; [by left..|].
    destruct (FAISS_from_texts col_lst) as [idx|e] eqn:Hbuild; [|by left].
    right. apply usable_path_Some in Hpath as [-> Hp]. by exists p, idx.
  - by destruct (FAISS_from_texts col_lst); left.
Qed.

(** X8.  With a null path or an empty string as path nothing is persisted:
    the corpus is handed to the index builder on every call, the disk is
    neither read nor written, and the answer is the top match of the index
    just built (or the builder's exception). *)
Theorem unusable_path_builds_every_time
    (col_lst : option (list string)) (path : option string)
    (search_text : string) (w : World) :
  path = None \/ path = Some EmptyString ->
  VectorSearchUtil.vector_similarity_search col_lst path search_text w
  = match FAISS_from_texts col_lst with
    | Ok idx =>
        (top_match (similarity_search idx search_text),
         with_trace w (session w) [EvBuild col_lst; EvSearch search_text])
    | Raise e => (Raise e, with_trace w (session w) [EvBuild col_lst])
    end.
Proof.
  intros Hpath. rewrite vector_similarity_search_cases.
  by destruct Hpath as [-> | ->].
Qed.

(** X9.  Whenever the vector search returns a value, that value is the
    [page_content] of the first document that [similarity_search] ranked
    for the search text, on the index saved under the usable path or, when
    nothing is there, on the index built from the corpus. *)
Theorem vector_search_result_is_top_document
    (col_lst : option (list string)) (path : option string)
    (search_text result : string) (w w' : World) :
  VectorSearchUtil.vector_similarity_search col_lst path search_text w
  = (Ok result, w') ->
  exists idx doc docs,
    similarity_search idx search_text = Ok (doc :: docs)
    /\ result = page_content doc
    /\ ((exists p, usable_path path = Some p
                   /\ disk w !! p = Some (IndexDir idx))
        \/ ((forall p, usable_path path = Some p -> disk w !! p = None)
            /\ FAISS_from_texts col_lst = Ok idx)).
Proof.
  rewrite vector_similarity_search_cases.
  assert (forall idx (w1 : World),
            (top_match (similarity_search idx search_text), w1)
            = (Ok result, w') ->
            exists doc docs,
              similarity_search idx search_text = Ok (doc :: docs)
              /\ result = page_content doc) as Htop.
  { intros idx w1. unfold top_match.
    destruct (similarity_search idx search_text) as [[|doc docs]|e];
      intros [= <- <-] || intros [=]. by exists doc, docs. }
  destruct (usable_path path) as [p|] eqn:Hpath.
  - destruct (disk w !! p) as [[idx|]|] eqn:Hdisk.
    + intros Hrun. destruct (Htop _ _ Hrun) as (doc & docs & Hdocs & ->).
      exists idx, doc, docs. repeat split; [done|]. left. by exists p.
    + intros [=].
    + destruct (FAISS_from_texts col_lst) as [idx|e] eqn:Hbuild;
        [|intros [=]].
      intros Hrun. destruct (Htop _ _ Hrun) as (doc & docs & Hdocs & ->).
      exists idx, doc, docs. repeat split; [done|]. right.
      split; [|done]. by intros ? [= <-].
  - destruct (FAISS_from_texts col_lst) as [idx|e] eqn:Hbuild;
      [|intros [=]].
    intros Hrun. destruct (Htop _ _ Hrun) as (doc & docs & Hdocs & ->).
    exists idx, doc, docs. repeat split; [done|]. right.
    split; [|done]. by intros ? [=].
Qed.

(** X10.  When the search of the index comes back without documents, the
    vector search raises Python's out-of-range [IndexError] at [docs[0]],
    both for an index loaded from the path and for one built from the
    corpus; a new index has been saved by then. *)
Theorem empty_search_result_raises_IndexError
    (col_lst : option (list string)) (path : option string)
    (search_text : string) (w : World) (idx : Index) :
  similarity_search idx search_text = Ok [] ->
  (forall p,
     usable_path path = Some p -> disk w !! p = Some (IndexDir idx) ->
     VectorSearchUtil.vector_similarity_search col_lst path search_text w
     = (Raise (IndexError "list index out of range"),
        with_trace w (session w) [EvLoad p; EvSearch search_text]))
  /\ (forall p,
        usable_path path = Some p -> disk w !! p = None ->
        FAISS_from_texts col_lst = Ok idx ->
        VectorSearchUtil.vector_similarity_search col_lst path search_text w
        = (Raise (IndexError "list index out of range"),
           with_index w p idx
             [EvBuild col_lst; EvSave p; EvSearch search_text])).
Proof.
  intros Hdocs. rewrite vector_similarity_search_cases.
  split; intros p -> ->.
  - unfold top_match. by rewrite Hdocs.
  - intros ->. unfold top_match. by rewrite Hdocs.
Qed.

End VectorSearchMore.

(** ** Splitting the instruction *)

(** X13.  Splitting at a separator loses nothing: joining the fields with
    the separator gives the string back. *)
Theorem py_split_join (sep : Ascii.ascii) (s : string) :
  String.concat (String sep EmptyString) (py_split sep s) = s.
Proof.
  induction s as [|c s IH]; [done|]. simpl.
  destruct (Ascii.eqb_spec c sep) as [->|Hc].
  - destruct (py_split sep s) as [|field fields] eqn:Hsplit.
    + destruct (py_split_fields sep s) as (? & ? & ?). congruence.
    + simpl. simpl in IH. by rewrite IH.
  - destruct (py_split sep s) as [|field fields] eqn:Hsplit.
    + destruct (py_split_fields sep s) as (? & ? & ?). congruence.
    + simpl in *. destruct fields; simpl in *; by rewrite <- IH.
Qed.

(** X14.  A string with [n] separators splits into [n + 1] fields, none of
    which holds the separator: the instruction format cannot carry a pipe
    inside a field. *)
Theorem py_split_fields_count (sep : Ascii.ascii) (s : string) :
  length (py_split sep s) = S (count_char sep s)
  /\ Forall (fun field => contains_char sep field = false) (py_split sep s).
Proof.
  unfold contains_char.
  induction s as [|c s [IHlen IHfree]]; [by repeat constructor|].
  simpl. destruct (Ascii.eqb c sep) eqn:Hc.
  - split; [simpl; by rewrite IHlen|]. by constructor.
  - destruct (py_split sep s) as [|field fields]; [done|].
    split; [done|]. inversion IHfree as [|? ? Hfield Hfields]; subst.
    constructor; [|done]. simpl. by rewrite Hc.
Qed.

(** ** The similar-value tool *)

Section SimilarValueMore.
Context `{C : Collaborators}.

Lemma view_column_path_truthy (temp_name col : string) :
  truthy (temp_name +:+ "_" +:+ col) = true.
Proof. by destruct temp_name. Qed.

(** The run up to the vector search, when no directory is set and the
    engine delivers the column. *)
Lemma _run_collected
    (vector_store_dir : option string) (inputs : string)
    (search_text col temp_name : string) (more : list string) (w : World)
    (df : DataFrame) (rows : list Row) (values : list string)
    (s1 s2 : Session) :
  truthy_opt vector_store_dir = false ->
  py_split "|" inputs = search_text :: col :: temp_name :: more ->
  spark_sql (SimilarValueTool.distinct_query col temp_name) (session w)
  = (Ok df, s1) ->
  df_collect df s1 = (Ok rows, s2) ->
  SimilarValueTool.column_strings col rows = Ok values ->
  SimilarValueTool._run vector_store_dir inputs w
  = match py_add vector_store_dir temp_name with
    | Ok p0 =>
        VectorSearchUtil.vector_similarity_search
          (Some values) (Some (p0 +:+ "_" +:+ col)) search_text
          (with_trace w s2
             [EvSql (SimilarValueTool.distinct_query col temp_name);
              EvCollect])
    | Raise e =>
        (Raise e,
         with_trace w s2
           [EvSql (SimilarValueTool.distinct_query col temp_name);
            EvCollect])
    end.
Proof.
  intros Hdir Hsplit Hsql Hrows Hvalues.
  rewrite (_run_parsed _ _ _ _ _ _ _ Hsplit), Hdir. simpl.
  unfold bind at 1. rewrite call_spark_sql, Hsql. simpl.
  unfold bind at 1. rewrite call_df_collect. simpl. rewrite Hrows. simpl.
  unfold bind at 1, lift at 1. rewrite Hvalues.
  unfold bind at 1, lift at 1. rewrite with_trace_twice. simpl.
  by destruct (py_add vector_store_dir temp_name).
Qed.

(** X11.  The similar-value tool has no [try]: with no directory set, an
    exception of any class, the engine's [PySparkException] included, that
    is raised by the distinct-values query, by [collect] or by reading the
    column off a row is raised to the caller, and the vector store is not
    reached. *)
Theorem similar_value_errors_are_raised
    (vector_store_dir : option string) (inputs : string)
    (search_text col temp_name : string) (more : list string) (w : World)
    (e : exn) :
  truthy_opt vector_store_dir = false ->
  py_split "|" inputs = search_text :: col :: temp_name :: more ->
  let query := "select distinct `" +:+ col +:+ "` from " +:+ temp_name in
  (forall s1,
     spark_sql query (session w) = (Raise e, s1) ->
     SimilarValueTool._run vector_store_dir inputs w
     = (Raise e, with_trace w s1 [EvSql query]))
  /\ (forall df s1 s2,
        spark_sql query (session w) = (Ok df, s1) ->
        df_collect df s1 = (Raise e, s2) ->
        SimilarValueTool._run vector_store_dir inputs w
        = (Raise e, with_trace w s2 [EvSql query; EvCollect]))
  /\ (forall df rows s1 s2,
        spark_sql query (session w) = (Ok df, s1) ->
        df_collect df s1 = (Ok rows, s2) ->
        SimilarValueTool.column_strings col rows = Raise e ->
        SimilarValueTool._run vector_store_dir inputs w
        = (Raise e, with_trace w s2 [EvSql query; EvCollect])).
Proof.
  intros Hdir Hsplit query.
  rewrite (_run_parsed _ _ _ _ _ _ _ Hsplit), Hdir. simpl.
  change (SimilarValueTool.distinct_query col temp_name) with query.
  repeat split.
  - intros s1 Hsql. unfold bind at 1. by rewrite call_spark_sql, Hsql.
  - intros df s1 s2 Hsql Hrows.
    unfold bind at 1. rewrite call_spark_sql, Hsql. simpl.
    unfold bind at 1. rewrite call_df_collect. simpl. rewrite Hrows. simpl.
    by rewrite with_trace_twice.
  - intros df rows s1 s2 Hsql Hrows Hvalues.
    unfold bind at 1. rewrite call_spark_sql, Hsql. simpl.
    unfold bind at 1. rewrite call_df_collect. simpl. rewrite Hrows. simpl.
    unfold bind at 1, lift at 1. rewrite Hvalues.
    by rewrite with_trace_twice.
Qed.

(** X12.  Fields after the third are dropped without a word: an
    instruction with more than three fields runs exactly as the instruction
    made of its first three. *)
Theorem extra_fields_are_ignored
    (vector_store_dir : option string) (inputs inputs3 : string)
    (search_text col temp_name : string) (more : list string) (w : World) :
  py_split "|" inputs = search_text :: col :: temp_name :: more ->
  py_split "|" inputs3 = [search_text; col; temp_name] ->
  SimilarValueTool._run vector_store_dir inputs w
  = SimilarValueTool._run vector_store_dir inputs3 w.
Proof.
  intros Hsplit Hsplit3.
  by rewrite (_run_parsed _ _ _ _ _ _ _ Hsplit),
             (_run_parsed _ _ _ _ _ _ _ Hsplit3).
Qed.

(** X15.  With a directory configured, the tool's answer does not depend on
    the column or the view at all, and when the index builder rejects a null
    corpus every instruction of three or more fields ends in the builder's
    exception. *)
Theorem configured_dir_fails_with_builder
    (dir inputs search_text col temp_name : string) (more : list string)
    (w : World) (e : exn) :
  truthy dir = true ->
  py_split "|" inputs = search_text :: col :: temp_name :: more ->
  FAISS_from_texts None = Raise e ->
  SimilarValueTool._run (Some dir) inputs w
  = (Raise e, with_trace w (session w) [EvBuild None]).
Proof.
  intros Hdir Hsplit Hbuild.
  rewrite (_run_parsed _ _ _ _ _ _ _ Hsplit). simpl. rewrite Hdir. simpl.
  by rewrite vector_similarity_search_cases, Hbuild.
Qed.

(** X16.  With the directory set to the empty string and nothing saved yet,
    the tool embeds the values that the distinct-values query delivers,
    saves the index under the relative path [<view>_<column>] and returns
    the top match. *)
Theorem empty_dir_builds_and_saves
    (inputs search_text col temp_name : string) (more : list string)
    (w : World) (df : DataFrame) (rows : list Row) (values : list string)
    (s1 s2 : Session) (idx : Index) :
  py_split "|" inputs = search_text :: col :: temp_name :: more ->
  let query := "select distinct `" +:+ col +:+ "` from " +:+ temp_name in
  let path := temp_name +:+ "_" +:+ col in
  spark_sql query (session w) = (Ok df, s1) ->
  df_collect df s1 = (Ok rows, s2) ->
  SimilarValueTool.column_strings col rows = Ok values ->
  disk w !! path = None ->
  FAISS_from_texts (Some values) = Ok idx ->
  SimilarValueTool._run (Some EmptyString) inputs w
  = (top_match (similarity_search idx search_text),
     {| session := s2;
        disk := <[path := IndexDir idx]> (disk w);
        trace := trace w ++ [EvSql query; EvCollect; EvBuild (Some values);
                             EvSave path; EvSearch search_text] |}).
Proof.
  intros Hsplit query path Hsql Hrows Hvalues Hdisk Hbuild.
  rewrite (_run_collected (Some EmptyString) inputs search_text col temp_name
             more w df rows values s1 s2 eq_refl Hsplit Hsql Hrows Hvalues).
  simpl. rewrite vector_similarity_search_cases.
  change (usable_path (Some _)) with (usable_path (Some path)).
  unfold usable_path, path at 1.
  rewrite (view_column_path_truthy temp_name col).
  simpl. rewrite Hdisk, Hbuild.
  unfold with_index, with_trace. simpl. by rewrite <- app_assoc.
Qed.

(** X17.  With the directory set to the empty string and an index already
    saved under [<view>_<column>], the tool still sends the distinct-values
    query and collects the rows, but answers from the saved index: the
    values just collected are not embedded, and the disk stays as it is. *)
Theorem empty_dir_answers_from_saved_index
    (inputs search_text col temp_name : string) (more : list string)
    (w : World) (df : DataFrame) (rows : list Row) (values : list string)
    (s1 s2 : Session) (idx : Index) :
  py_split "|" inputs = search_text :: col :: temp_name :: more ->
  let query := "select distinct `" +:+ col +:+ "` from " +:+ temp_name in
  let path := temp_name +:+ "_" +:+ col in
  spark_sql query (session w) = (Ok df, s1) ->
  df_collect df s1 = (Ok rows, s2) ->
  SimilarValueTool.column_strings col rows = Ok values ->
  disk w !! path = Some (IndexDir idx) ->
  SimilarValueTool._run (Some EmptyString) inputs w
  = (top_match (similarity_search idx search_text),
     {| session := s2;
        disk := disk w;
        trace := trace w ++ [EvSql query; EvCollect; EvLoad path;
                             EvSearch search_text] |}).
Proof.
  intros Hsplit query path Hsql Hrows Hvalues Hdisk.
  rewrite (_run_collected (Some EmptyString) inputs search_text col temp_name
             more w df rows values s1 s2 eq_refl Hsplit Hsql Hrows Hvalues).
  simpl. rewrite vector_similarity_search_cases.
  change (usable_path (Some _)) with (usable_path (Some path)).
  unfold usable_path, path at 1.
  rewrite (view_column_path_truthy temp_name col).
  simpl. rewrite Hdisk.
  unfold with_trace. simpl. by rewrite <- app_assoc.
Qed.

End SimilarValueMore.

(** ** More runs on the concrete world *)

Section RunsMore.
Import Demo.
#[local] Existing Instance Demo.collaborators.

(** No [pyspark.errors]: the query is never looked at. *)
Lemma import_guard_stops_before_engine_witness :
  QuerySparkSQLTool._run (C := without_pyspark_errors) "selec 1" w0_without
  = (Raise (ValueError
              "pyspark is not installed. Please install it with `pip install pyspark`"),
     w0_without)
  /\ QueryValidationTool._run (C := without_pyspark_errors) "selec 1"
       w0_without
     = (Raise (ValueError
                 "pyspark is not installed. Please install it with `pip install pyspark`"),
        w0_without).
Proof.
  apply (import_guard_stops_before_engine (C := without_pyspark_errors)
           "selec 1" w0_without).
  reflexivity.
Defined.

(** A rejected query has been sent once all the same. *)
Lemma query_sent_verbatim_once_witness :
  sql_queries (trace (snd (QuerySparkSQLTool._run "selec 1" w0)))
  = sql_queries (trace w0) ++ ["selec 1"]
  /\ disk (snd (QuerySparkSQLTool._run "selec 1" w0)) = disk w0.
Proof.
  apply (query_sent_verbatim_once (C := collaborators) "selec 1" w0).
  reflexivity.
Defined.

(** Three rows come back as one string. *)
Lemma accepted_query_returns_results_witness :
  QuerySparkSQLTool._run "select distinct `name` from employees" w0
  = (Ok "Alice; Bob; Bobby",
     with_trace w0 []
       [EvSql "select distinct `name` from employees"; EvResults]).
Proof.
  apply (accepted_query_returns_results (C := collaborators)
           "select distinct `name` from employees" w0 employees
           {| builtin_str := "Alice; Bob; Bobby" |} [] []); reflexivity.
Defined.

(** An empty string as path: built, searched, not saved. *)
Lemma unusable_path_builds_every_time_witness :
  VectorSearchUtil.vector_similarity_search
    (Some ["Alice"; "Bob"; "Bobby"]) (Some EmptyString) "Bob" w0
  = (Ok "Bob",
     with_trace w0 []
       [EvBuild (Some ["Alice"; "Bob"; "Bobby"]); EvSearch "Bob"]).
Proof.
  apply (unusable_path_builds_every_time (C := collaborators)
           (Some ["Alice"; "Bob"; "Bobby"]) (Some EmptyString) "Bob" w0).
  by right.
Defined.

(** The value returned for "Bob" is the first document of a search. *)
Lemma vector_search_result_is_top_document_witness :
  exists idx doc docs,
    search idx "Bob" = Ok (doc :: docs)
    /\ "Bob" = page_content doc
    /\ ((exists p, usable_path (Some "store/employees_name") = Some p
                   /\ disk w0 !! p = Some (IndexDir idx))
        \/ ((forall p, usable_path (Some "store/employees_name") = Some p ->
                       disk w0 !! p = None)
            /\ from_texts (Some ["Alice"; "Bob"; "Bobby"]) = Ok idx)).
Proof.
  apply (vector_search_result_is_top_document (C := collaborators)
           (Some ["Alice"; "Bob"; "Bobby"]) (Some "store/employees_name")
           "Bob" "Bob" w0
           (snd (VectorSearchUtil.vector_similarity_search
                   (Some ["Alice"; "Bob"; "Bobby"])
                   (Some "store/employees_name") "Bob" w0))).
  reflexivity.
Defined.

(** An index without entries lies under the path. *)
Lemma empty_search_result_raises_IndexError_witness :
  let w := {| session := []; disk := {[ "store/empty" := IndexDir [] ]};
              trace := [] |} in
  VectorSearchUtil.vector_similarity_search
    (Some ["Alice"]) (Some "store/empty") "Bob" w
  = (Raise (IndexError "list index out of range"),
     with_trace w [] [EvLoad "store/empty"; EvSearch "Bob"]).
Proof.
  intros w.
  pose proof (empty_search_result_raises_IndexError (C := collaborators)
                (Some ["Alice"]) (Some "store/empty") "Bob" w []
                eq_refl) as [Hload _].
  apply (Hload "store/empty"); reflexivity.
Defined.

(** An unknown view: the engine's exception comes out of the tool. *)
Lemma similar_value_errors_are_raised_witness :
  SimilarValueTool._run None "Bob|name|nobody" w0
  = (Raise (PySparkException
              "[PARSE_SYNTAX_ERROR] Syntax error at or near select distinct `name` from nobody"),
     with_trace w0 [] [EvSql "select distinct `name` from nobody"]).
Proof.
  pose proof (similar_value_errors_are_raised (C := collaborators)
                None "Bob|name|nobody" "Bob" "name" "nobody" [] w0
                (PySparkException
                   "[PARSE_SYNTAX_ERROR] Syntax error at or near select distinct `name` from nobody")
                eq_refl eq_refl) as [Hsql _].
  apply (Hsql []). reflexivity.
Defined.

(** A fourth field changes nothing. *)
Lemma extra_fields_are_ignored_witness :
  SimilarValueTool._run (Some EmptyString) "Bob|name|employees|salary" w0
  = SimilarValueTool._run (Some EmptyString) "Bob|name|employees" w0.
Proof.
  apply (extra_fields_are_ignored (C := collaborators) (Some EmptyString)
           "Bob|name|employees|salary" "Bob|name|employees"
           "Bob" "name" "employees" ["salary"] w0); reflexivity.
Defined.

(** A directory is configured and the builder rejects [None]. *)
Lemma configured_dir_fails_with_builder_witness :
  SimilarValueTool._run (Some "store/") "Bob|name|employees" w0
  = (Raise (TypeError "'NoneType' object is not iterable"),
     with_trace w0 (session w0) [EvBuild None]).
Proof.
  apply (configured_dir_fails_with_builder (C := collaborators) "store/"
           "Bob|name|employees" "Bob" "name" "employees" [] w0
           (TypeError "'NoneType' object is not iterable")); reflexivity.
Defined.

(** The first run with the empty string as directory. *)
Lemma empty_dir_builds_and_saves_witness :
  SimilarValueTool._run (Some EmptyString) "Bob|name|employees" w0
  = (Ok "Bob",
     {| session := [];
        disk := <["employees_name" := IndexDir ["Alice"; "Bob"; "Bobby"]]>
                  (disk w0);
        trace := trace w0
                 ++ [EvSql "select distinct `name` from employees";
                     EvCollect; EvBuild (Some ["Alice"; "Bob"; "Bobby"]);
                     EvSave "employees_name"; EvSearch "Bob"] |}).
Proof.
  apply (empty_dir_builds_and_saves (C := collaborators)
           "Bob|name|employees" "Bob" "name" "employees" [] w0
           employees employees ["Alice"; "Bob"; "Bobby"] [] []
           ["Alice"; "Bob"; "Bobby"]); reflexivity.
Defined.

(** A run on top of an index saved when the view held "Bobby" only: "Bob"
    is in the view by now, and "Bobby" is the answer. *)
Lemma empty_dir_answers_from_saved_index_witness :
  SimilarValueTool._run (Some EmptyString) "Bob|name|employees" w_saved
  = (Ok "Bobby",
     {| session := [];
        disk := disk w_saved;
        trace := trace w_saved
                 ++ [EvSql "select distinct `name` from employees";
                     EvCollect; EvLoad "employees_name"; EvSearch "Bob"] |}).
Proof.
  apply (empty_dir_answers_from_saved_index (C := collaborators)
           "Bob|name|employees" "Bob" "name" "employees" [] w_saved
           employees employees ["Alice"; "Bob"; "Bobby"] [] []
           ["Bobby"]); reflexivity.
Defined.

End RunsMore.
